(** * The AI-assistant service facade (client/src/services/aiAssistant.js)

    The module exports one object, [aiAssistantApi], with seven arrow
    functions.  Each one evaluates a few object literals (and, for the upload,
    fills a [FormData]) and then calls one method of the imported HTTP client
    [api], returning whatever that method returns.

    The embedding is a state-passing one: JavaScript values with a store of
    heap objects, a small state monad for allocation and for the call on the
    client, and the client itself as an interface ([HttpClient]) whose
    behaviour is left open. *)

From stdpp Require Import gmap strings list fin_maps pretty.

Open Scope string_scope.
Open Scope list_scope.

(** ** JavaScript values and heap objects *)

Abbreviation loc := nat (only parsing).

(** Primitive values are carried as they are; objects are references into the
    store.  Numbers are the integer-valued ones (the facade never computes
    with a number, it only hands it on); [VNum n] stands for a number only
    when n is a safe integer (below 2^53 in absolute value).  Symbols are not
    among the values, and the objects are those listed below: no Blob that is
    not a File, no object with a string conversion of its own. *)
Inductive value :=
| VUndef
| VNull
| VBool (b : bool)
| VNum (n : Z)
| VStr (s : string)
| VRef (l : loc).

(** State of a promise (the "pending result" of the client). *)
Inductive settlement :=
| Pending
| Fulfilled (v : value)
| Rejected (e : value).

Inductive object :=
| OPlain (props : gmap string value)          (* object literal *)
| OFormData (entries : list (string * value)) (* entry list, in append order *)
| OFile (name : string) (content : string)
| OPromise (st : settlement)
| OError (message : string).

Abbreviation heap := (list object).

(** ** The HTTP client [api] (imported from "./api") *)

Inductive method := GET | POST | DELETE.

(** One call on the client: which method, the argument list as passed, and
    the store at the moment of the call (the arguments may be references). *)
Record dispatch := Dispatch {
  d_method : method;
  d_args : list value;
  d_heap : heap
}.

(** The client is not part of this module.  Each of its three methods takes
    the argument list and the store, and yields the returned value (normally
    a reference to a promise) and the store it leaves behind. *)
Class HttpClient := {
  client_get : list value → heap → value * heap;
  client_post : list value → heap → value * heap;
  client_delete : list value → heap → value * heap
}.

Definition perform `{HttpClient} (d : dispatch) : value * heap :=
  match d_method d with
  | GET => client_get (d_args d) (d_heap d)
  | POST => client_post (d_args d) (d_heap d)
  | DELETE => client_delete (d_args d) (d_heap d)
  end.

(** ** Machine state and its monad *)

Record state := State {
  st_heap : heap;
  st_trace : list dispatch   (* calls made on the client, oldest first *)
}.

Definition M (A : Type) : Type := state → A * state.

Definition ret {A} (x : A) : M A := λ σ, (x, σ).

Definition bind {A B} (m : M A) (k : A → M B) : M B :=
  λ σ, let (a, σ') := m σ in k a σ'.

Notation "x <- m ;; k" := (bind m (λ x, k))
  (at level 100, m at next level, right associativity).
Notation "m ;;; k" := (bind m (λ _, k))
  (at level 100, right associativity).

(** Allocation of a fresh object: the next free location. *)
Definition alloc (o : object) : M loc :=
  λ σ, (length (st_heap σ), State (st_heap σ ++ [o]) (st_trace σ)).

(** An object literal [{k1: v1, ..., kn: vn}]: properties are defined in
    source order, a later one overriding an earlier one of the same name. *)
Definition literal (props : list (string * value)) : gmap string value :=
  foldl (λ m kv, <[kv.1 := kv.2]> m) ∅ props.

Definition object_literal (props : list (string * value)) : M value :=
  l <- alloc (OPlain (literal props)) ;; ret (VRef l).

(** [ToString] on the values of this model (used by [FormData.append] for a
    value that is not a file).  The digits of a number are those JavaScript
    prints for a safe integer; larger numbers are outside the model. *)
Definition to_string (h : heap) (v : value) : string :=
  match v with
  | VUndef => "undefined"
  | VNull => "null"
  | VBool true => "true"
  | VBool false => "false"
  | VNum n => pretty n
  | VStr s => s
  | VRef l =>
      match h !! l with
      | Some (OFormData _) => "[object FormData]"
      | Some (OFile _ _) => "[object File]"
      | Some (OPromise _) => "[object Promise]"
      | Some (OError EmptyString) => "Error"
      | Some (OError m) => ("Error: " ++ m)%string
      | _ => "[object Object]"
      end
  end.

(** The value [FormData.append(name, v)] stores, for the values of this
    model: a file is stored as it is, anything else is converted to a
    string.  (A Blob that is not a File would be wrapped in a new File, and a
    value whose conversion throws would make [append] throw; neither is a
    value of the model.) *)
Definition form_entry (h : heap) (v : value) : value :=
  match v with
  | VRef l =>
      match h !! l with
      | Some (OFile _ _) => v
      | _ => VStr (to_string h v)
      end
  | _ => VStr (to_string h v)
  end.

(** [new FormData()] *)
Definition FormData_new : M loc := alloc (OFormData []).

(** [fd.append(name, v)]: the entry goes to the end of the list of [fd]. *)
Definition FormData_append (fd : loc) (name : string) (v : value) : M unit :=
  λ σ,
    match st_heap σ !! fd with
    | Some (OFormData es) =>
        (tt, State (<[fd := OFormData (es ++ [(name, form_entry (st_heap σ) v)])]>
                      (st_heap σ))
                   (st_trace σ))
    | _ => (tt, σ)
    end.

(** The i-th actual argument of a call; a missing one is [undefined]. *)
Definition arg (i : nat) (args : list value) : value :=
  default VUndef (args !! i).

(** A parameter with a default ([p = d]): the default is taken when the
    actual argument is [undefined] (also when it is missing). *)
Definition default_param (v d : value) : value :=
  match v with
  | VUndef => d
  | _ => v
  end.

(** ** The facade *)

Section Facade.
Context `{api : HttpClient}.

(** A call [api.m(args)]: the client runs on the current store; its returned
    value is the value of the call expression. *)
Definition call (m : method) (args : list value) : M value :=
  λ σ,
    let d := Dispatch m args (st_heap σ) in
    let (r, h') := perform d in
    (r, State h' (st_trace σ ++ [d])).

Definition api_get := call GET.
Definition api_post := call POST.
Definition api_delete := call DELETE.

Definition sendMessage (args : list value) : M value :=
  let sessionId := arg 0 args in
  let userQuery := arg 1 args in
  let subject := arg 2 args in
  let learnerType := default_param (arg 3 args) (VStr "medium") in
  params <- object_literal [("session_id", sessionId);
                            ("user_query", userQuery);
                            ("subject", subject);
                            ("learner_type", learnerType)] ;;
  config <- object_literal [("params", params)] ;;
  api_post [VStr "/services/chat"; VNull; config].

Definition getSessions (args : list value) : M value :=
  api_get [VStr "/services/sessions"].

Definition createSession (args : list value) : M value :=
  let userId := arg 0 args in
  params <- object_literal [("user_id", userId)] ;;
  config <- object_literal [("params", params)] ;;
  api_post [VStr "/services/session/create"; VNull; config].

Definition deleteSession (args : list value) : M value :=
  let userId := arg 0 args in
  let sessionId := arg 1 args in
  params <- object_literal [("user_id", userId);
                            ("session_id", sessionId)] ;;
  config <- object_literal [("params", params)] ;;
  api_delete [VStr "/services/session/delete"; config].

Definition getRecommendations (args : list value) : M value :=
  let subject := arg 0 args in
  let learnerType := default_param (arg 1 args) (VStr "medium") in
  params <- object_literal [("subject", subject);
                            ("learner_type", learnerType)] ;;
  config <- object_literal [("params", params)] ;;
  api_post [VStr "/services/recommendations"; VNull; config].

Definition getAutocompleteSuggestions (args : list value) : M value :=
  let userQueryPartial := arg 0 args in
  let subject := arg 1 args in
  params <- object_literal [("user_query_partial", userQueryPartial);
                            ("subject", subject)] ;;
  config <- object_literal [("params", params)] ;;
  api_post [VStr "/services/autocomplete"; VNull; config].

Definition uploadTextbook (args : list value) : M value :=
  let file := arg 0 args in
  formData <- FormData_new ;;
  FormData_append formData "file" file ;;;
  headers <- object_literal [("Content-Type", VStr "multipart/form-data")] ;;
  config <- object_literal [("headers", headers)] ;;
  api_post [VStr "/services/upload"; VRef formData; config].

End Facade.

(** The exported object: one function per property. *)
Inductive operation :=
| SendMessage
| GetSessions
| CreateSession
| DeleteSession
| GetRecommendations
| GetAutocompleteSuggestions
| UploadTextbook.

Definition aiAssistantApi `{api : HttpClient} (op : operation)
  : list value → M value :=
  match op with
  | SendMessage => sendMessage
  | GetSessions => getSessions
  | CreateSession => createSession
  | DeleteSession => deleteSession
  | GetRecommendations => getRecommendations
  | GetAutocompleteSuggestions => getAutocompleteSuggestions
  | UploadTextbook => uploadTextbook
  end.

(** ** Reading a call as a request descriptor

    The client's methods are [get(path, config)], [post(path, body, config)]
    and [delete(path, config)]; [config] carries the query parameters under
    [params] and the headers under [headers]. *)

Inductive payload :=
| NoBody                                        (* null or no body argument *)
| Multipart (entries : list (string * value))   (* a FormData *)
| Opaque (v : value).                           (* anything else *)

Record RequestDescriptor := Request {
  rd_method : method;
  rd_path : string;
  rd_parameters : gmap string value;
  rd_body : payload;
  rd_headers : option (gmap string value)
}.

Definition read_mapping (h : heap) (v : value) : option (gmap string value) :=
  match v with
  | VRef l =>
      match h !! l with
      | Some (OPlain m) => Some m
      | _ => None
      end
  | _ => None
  end.

Definition read_params (h : heap) (cfg : option (gmap string value))
  : option (gmap string value) :=
  match cfg with
  | None => Some ∅
  | Some c =>
      match c !! "params" with
      | None => Some ∅
      | Some v => read_mapping h v
      end
  end.

Definition read_headers (h : heap) (cfg : option (gmap string value))
  : option (option (gmap string value)) :=
  match cfg with
  | None => Some None
  | Some c =>
      match c !! "headers" with
      | None => Some None
      | Some v => Some <$> read_mapping h v
      end
  end.

(** A [config] argument that was not passed is [undefined]. *)
Definition read_config (h : heap) (cfg : value)
  : option (option (gmap string value)) :=
  match cfg with
  | VUndef => Some None
  | _ => Some <$> read_mapping h cfg
  end.

Definition read_body (h : heap) (b : value) : payload :=
  match b with
  | VUndef | VNull => NoBody
  | VRef l =>
      match h !! l with
      | Some (OFormData es) => Multipart es
      | _ => Opaque b
      end
  | _ => Opaque b
  end.

Definition describe (d : dispatch) : option RequestDescriptor :=
  let h := d_heap d in
  let vs := d_args d in
  match arg 0 vs with
  | VStr path =>
      let body :=
        match d_method d with
        | POST => read_body h (arg 1 vs)
        | _ => NoBody
        end in
      let config :=
        match d_method d with
        | POST => arg 2 vs
        | _ => arg 1 vs
        end in
      cfg ← read_config h config;
      params ← read_params h cfg;
      headers ← read_headers h cfg;
      Some (Request (d_method d) path params body headers)
  | _ => None
  end.

(** The calls a computation makes on the client when run from [σ]. *)
Definition issued {A} (m : M A) (σ : state) : list dispatch :=
  drop (length (st_trace σ)) (st_trace (m σ).2).

(** The outcome of a computation that ends with the call [d]. *)
Definition after_call `{HttpClient} (d : dispatch) (σ : state) : value * state :=
  ((perform d).1, State (perform d).2 (st_trace σ ++ [d])).

(** A key-value mapping written out. *)
Definition mapping (kvs : list (string * value)) : gmap string value :=
  list_to_map kvs.

(** ** Predicates used in the statements *)

(** A reference to a [File] of the store. *)
Definition is_file (h : heap) (v : value) : bool :=
  match v with
  | VRef l =>
      match h !! l with
      | Some (OFile _ _) => true
      | _ => false
      end
  | _ => false
  end.

(** The promise [p] is rejected with reason [e] in store [h]. *)
Definition rejects (h : heap) (p e : value) : Prop :=
  ∃ l, p = VRef l ∧ h !! l = Some (OPromise (Rejected e)).

(** The two stores hold the same object at every reference among [args]. *)
Definition agree_on (h1 h2 : heap) (args : list value) : Prop :=
  ∀ l, VRef l ∈ args → is_Some (h1 !! l) ∧ h1 !! l = h2 !! l.

(** The arguments an operation looks into: only the upload does, when
    [FormData.append] tells a file from the other values; everywhere else an
    argument is handed on as it is. *)
Definition dereferenced (op : operation) (args : list value) : list value :=
  match op with
  | UploadTextbook => [arg 0 args]
  | _ => []
  end.

(** The Parameters column of the table of §6 of the specification (the row
    of the upload lists a body and a header, no query parameter). *)
Definition table_parameters (op : operation) : list string :=
  match op with
  | SendMessage => ["session_id"; "user_query"; "subject"; "learner_type"]
  | GetSessions => []
  | CreateSession => ["user_id"]
  | DeleteSession => ["user_id"; "session_id"]
  | GetRecommendations => ["subject"; "learner_type"]
  | GetAutocompleteSuggestions => ["user_query_partial"; "subject"]
  | UploadTextbook => []
  end.

(** Number of declared parameters of each arrow function. *)
Definition arity (op : operation) : nat :=
  match op with
  | SendMessage => 4
  | GetSessions => 0
  | CreateSession => 1
  | DeleteSession => 2
  | GetRecommendations => 2
  | GetAutocompleteSuggestions => 2
  | UploadTextbook => 1
  end.

(** For each key of the params literal of an operation, the position of the
    declared parameter whose value the literal binds to it. *)
Definition parameter_arguments (op : operation) : list (string * nat) :=
  match op with
  | SendMessage => [("session_id", 0); ("user_query", 1);
                    ("subject", 2); ("learner_type", 3)]
  | GetSessions => []
  | CreateSession => [("user_id", 0)]
  | DeleteSession => [("user_id", 0); ("session_id", 1)]
  | GetRecommendations => [("subject", 0); ("learner_type", 1)]
  | GetAutocompleteSuggestions => [("user_query_partial", 0); ("subject", 1)]
  | UploadTextbook => []
  end.


(** The client method each arrow function calls, and the path literal it
    passes as first argument. *)
Definition http_method (op : operation) : method :=
  match op with
  | GetSessions => GET
  | DeleteSession => DELETE
  | _ => POST
  end.

Definition endpoint (op : operation) : string :=
  match op with
  | SendMessage => "/services/chat"
  | GetSessions => "/services/sessions"
  | CreateSession => "/services/session/create"
  | DeleteSession => "/services/session/delete"
  | GetRecommendations => "/services/recommendations"
  | GetAutocompleteSuggestions => "/services/autocomplete"
  | UploadTextbook => "/services/upload"
  end.

(** A call that passes the path, an explicit null body and a configuration
    whose only property is [params]. *)
Definition passes_null_body_and_params_only
  (d : dispatch) (rd : RequestDescriptor) : Prop :=
  ∃ path cfg p,
    d_args d = [VStr path; VNull; VRef cfg]
    ∧ d_heap d !! cfg = Some (OPlain (mapping [("params", VRef p)]))
    ∧ rd_body rd = NoBody
    ∧ rd_headers rd = None.

(** ** A concrete client and store, for the examples *)

(** A client whose every request fails: the returned promise is rejected
    with a fresh error object. *)
Definition reject_with (msg : string) (h : heap) : value * heap :=
  (VRef (S (length h)),
   h ++ [OError msg; OPromise (Rejected (VRef (length h)))]).

Definition failing_client : HttpClient := {|
  client_get := λ _, reject_with "Network Error";
  client_post := λ _, reject_with "Network Error";
  client_delete := λ _, reject_with "Request failed with status code 500"
|}.

(** A store holding one file, and no call made yet. *)
Definition store0 : state := State [OFile "book.pdf" "%PDF-1.7"] [].

(** ** Running the operations

    Every operation allocates its literals at the end of the store and then
    makes its call; the lemmas below spell out the call that is made. *)

Lemma issued_after_call `{HttpClient} (m : M value) (σ : state) d :
  m σ = after_call d σ → issued m σ = [d].
Proof.
  intros E. unfold issued. rewrite E. simpl.
  by rewrite drop_app_length.
Qed.

Lemma lookup_fresh_0 (h : heap) o rest : (h ++ o :: rest) !! length h = Some o.
Proof. by apply list_lookup_middle. Qed.

Lemma lookup_fresh_1 (h : heap) o1 o2 rest :
  (h ++ o1 :: o2 :: rest) !! S (length h) = Some o2.
Proof.
  replace (h ++ o1 :: o2 :: rest) with ((h ++ [o1]) ++ o2 :: rest)
    by (by rewrite <- app_assoc).
  apply list_lookup_middle. rewrite length_app. simpl. lia.
Qed.

Lemma lookup_fresh_2 (h : heap) o1 o2 o3 rest :
  (h ++ o1 :: o2 :: o3 :: rest) !! S (S (length h)) = Some o3.
Proof.
  replace (h ++ o1 :: o2 :: o3 :: rest) with ((h ++ [o1; o2]) ++ o3 :: rest)
    by (by rewrite <- app_assoc).
  apply list_lookup_middle. rewrite length_app. simpl. lia.
Qed.

Lemma lookup_old (h fresh : heap) l o :
  h !! l = Some o → (h ++ fresh) !! l = Some o.
Proof. intros E. by apply lookup_app_l_Some. Qed.

Lemma length_snoc (h : heap) o : length (h ++ [o]) = S (length h).
Proof. rewrite length_app. simpl. lia. Qed.

Lemma insert_fresh_0 (h : heap) o o' : <[length h := o']> (h ++ [o]) = h ++ [o'].
Proof.
  rewrite insert_app_r_alt by lia. by rewrite Nat.sub_diag.
Qed.

Ltac run_op :=
  unfold after_call, bind, object_literal, FormData_new, alloc, ret,
    api_post, api_get, api_delete, call; simpl;
  rewrite ?length_snoc, ?length_app; simpl;
  rewrite <- ?app_assoc; simpl;
  repeat match goal with
         | |- context [perform ?d] => destruct (perform d) as [? ?]
         end;
  simpl; try reflexivity.

Section Runs.
Context `{api : HttpClient}.

Lemma sendMessage_run args σ :
  let h := st_heap σ in
  sendMessage args σ =
  after_call
    (Dispatch POST [VStr "/services/chat"; VNull; VRef (S (length h))]
       (h ++ [OPlain (literal [("session_id", arg 0 args);
                               ("user_query", arg 1 args);
                               ("subject", arg 2 args);
                               ("learner_type",
                                default_param (arg 3 args) (VStr "medium"))]);
              OPlain (literal [("params", VRef (length h))])])) σ.
Proof. unfold sendMessage. run_op. Qed.

Lemma getSessions_run args σ :
  getSessions args σ =
  after_call (Dispatch GET [VStr "/services/sessions"] (st_heap σ)) σ.
Proof. unfold getSessions. run_op. Qed.

Lemma createSession_run args σ :
  let h := st_heap σ in
  createSession args σ =
  after_call
    (Dispatch POST [VStr "/services/session/create"; VNull; VRef (S (length h))]
       (h ++ [OPlain (literal [("user_id", arg 0 args)]);
              OPlain (literal [("params", VRef (length h))])])) σ.
Proof. unfold createSession. run_op. Qed.

Lemma deleteSession_run args σ :
  let h := st_heap σ in
  deleteSession args σ =
  after_call
    (Dispatch DELETE [VStr "/services/session/delete"; VRef (S (length h))]
       (h ++ [OPlain (literal [("user_id", arg 0 args);
                               ("session_id", arg 1 args)]);
              OPlain (literal [("params", VRef (length h))])])) σ.
Proof. unfold deleteSession. run_op. Qed.

Lemma getRecommendations_run args σ :
  let h := st_heap σ in
  getRecommendations args σ =
  after_call
    (Dispatch POST [VStr "/services/recommendations"; VNull; VRef (S (length h))]
       (h ++ [OPlain (literal [("subject", arg 0 args);
                               ("learner_type",
                                default_param (arg 1 args) (VStr "medium"))]);
              OPlain (literal [("params", VRef (length h))])])) σ.
Proof. unfold getRecommendations. run_op. Qed.

Lemma getAutocompleteSuggestions_run args σ :
  let h := st_heap σ in
  getAutocompleteSuggestions args σ =
  after_call
    (Dispatch POST [VStr "/services/autocomplete"; VNull; VRef (S (length h))]
       (h ++ [OPlain (literal [("user_query_partial", arg 0 args);
                               ("subject", arg 1 args)]);
              OPlain (literal [("params", VRef (length h))])])) σ.
Proof. unfold getAutocompleteSuggestions. run_op. Qed.

Lemma uploadTextbook_run args σ :
  let h := st_heap σ in
  uploadTextbook args σ =
  after_call
    (Dispatch POST [VStr "/services/upload"; VRef (length h); VRef (S (S (length h)))]
       (h ++ [OFormData [("file", form_entry (h ++ [OFormData []]) (arg 0 args))];
              OPlain (literal [("Content-Type", VStr "multipart/form-data")]);
              OPlain (literal [("headers", VRef (S (length h)))])])) σ.
Proof.
  unfold uploadTextbook, bind, FormData_new, FormData_append, alloc.
  cbn [st_heap st_trace].
  rewrite lookup_fresh_0, insert_fresh_0.
  run_op.
Qed.

End Runs.

(** An object literal with distinct keys is the mapping of its pairs. *)
Lemma literal_1 k1 v1 : literal [(k1, v1)] = mapping [(k1, v1)].
Proof. reflexivity. Qed.

Lemma literal_2 k1 v1 k2 v2 :
  k1 ≠ k2 → literal [(k1, v1); (k2, v2)] = mapping [(k1, v1); (k2, v2)].
Proof. intros. unfold literal, mapping. simpl. by apply insert_insert_ne. Qed.

Lemma literal_4 k1 v1 k2 v2 k3 v3 k4 v4 :
  NoDup [k1; k2; k3; k4] →
  literal [(k1, v1); (k2, v2); (k3, v3); (k4, v4)]
  = mapping [(k1, v1); (k2, v2); (k3, v3); (k4, v4)].
Proof.
  intros ND. apply map_eq. intros k.
  unfold literal, mapping. simpl.
  repeat match goal with
         | H : NoDup (_ :: _) |- _ => apply NoDup_cons in H as [? ?]
         end.
  repeat (rewrite lookup_insert; case_decide; subst; try done); set_solver.
Qed.

Lemma literal_lookup_1 k v k' :
  literal [(k, v)] !! k' = if decide (k = k') then Some v else None.
Proof. unfold literal. simpl. rewrite lookup_insert. by case_decide. Qed.

(** Reading the configuration of the calls the facade makes. *)
Ltac read_heap :=
  unfold describe, arg, read_config, read_params, read_headers,
    read_body, read_mapping; simpl;
  repeat (first [ rewrite lookup_fresh_0 | rewrite lookup_fresh_1
                | rewrite lookup_fresh_2 | rewrite literal_lookup_1 ]; simpl).

Lemma describe_params_call m path (h : heap) (ps : gmap string value) rest :
  m ≠ POST →
  describe (Dispatch m [VStr path; VRef (S (length h))]
              (h ++ OPlain ps :: OPlain (literal [("params", VRef (length h))]) :: rest))
  = Some (Request m path ps NoBody None).
Proof. intros Hm. destruct m; try done; by read_heap. Qed.

Lemma describe_params_post path (h : heap) (ps : gmap string value) rest :
  describe (Dispatch POST [VStr path; VNull; VRef (S (length h))]
              (h ++ OPlain ps :: OPlain (literal [("params", VRef (length h))]) :: rest))
  = Some (Request POST path ps NoBody None).
Proof. by read_heap. Qed.

Lemma describe_upload path (h : heap) es (hs : gmap string value) rest :
  describe (Dispatch POST [VStr path; VRef (length h); VRef (S (S (length h)))]
              (h ++ OFormData es :: OPlain hs
                 :: OPlain (literal [("headers", VRef (S (length h)))]) :: rest))
  = Some (Request POST path ∅ (Multipart es) (Some hs)).
Proof. by read_heap. Qed.

Lemma describe_bare m path (h : heap) :
  describe (Dispatch m [VStr path] h) = Some (Request m path ∅ NoBody None).
Proof. unfold describe. by destruct m. Qed.

Lemma default_param_defined v d : v ≠ VUndef → default_param v d = v.
Proof. by destruct v. Qed.

Ltac distinct_keys := apply (bool_decide_unpack _); by vm_compute.

(** ** The requests of the seven operations *)

(** C1, as stated, at a call that passes [undefined] for the learner type:
    the request carries learner_type = "medium", not the argument. *)
Lemma sendMessage_undefined_learnerType :
  describe <$> issued (sendMessage (api := failing_client)
                         [VStr "s1"; VStr "hello"; VStr "math"; VUndef]) store0
  = [Some (Request POST "/services/chat"
             (mapping [("session_id", VStr "s1"); ("user_query", VStr "hello");
                       ("subject", VStr "math"); ("learner_type", VStr "medium")])
             NoBody None)]
  ∧ describe <$> issued (sendMessage (api := failing_client)
                           [VStr "s1"; VStr "hello"; VStr "math"; VUndef]) store0
  ≠ [Some (Request POST "/services/chat"
             (mapping [("session_id", VStr "s1"); ("user_query", VStr "hello");
                       ("subject", VStr "math"); ("learner_type", VUndef)])
             NoBody None)].
Proof. split; [by vm_compute | vm_compute; discriminate]. Qed.

(** C1 (amended): for every sessionId, userQuery and subject and every
    learnerType other than undefined, sendMessage makes exactly one call, a
    POST to /services/chat with a null body (no request body, no headers)
    whose query parameters are exactly session_id, user_query, subject and
    learner_type, bound to the four arguments; an undefined learnerType is
    sent as "medium". *)
Theorem sendMessage_request `{HttpClient} sessionId userQuery subject learnerType σ :
  learnerType ≠ VUndef →
  describe <$> issued (sendMessage [sessionId; userQuery; subject; learnerType]) σ
  = [Some (Request POST "/services/chat"
             (mapping [("session_id", sessionId); ("user_query", userQuery);
                       ("subject", subject); ("learner_type", learnerType)])
             NoBody None)]
  ∧ describe <$> issued (sendMessage [sessionId; userQuery; subject; VUndef]) σ
  = [Some (Request POST "/services/chat"
             (mapping [("session_id", sessionId); ("user_query", userQuery);
                       ("subject", subject); ("learner_type", VStr "medium")])
             NoBody None)].
Proof.
  intros Hdef. split.
  - rewrite (issued_after_call _ _ _ (sendMessage_run _ _)). simpl.
    rewrite describe_params_post, literal_4 by distinct_keys.
    unfold arg. simpl. by rewrite default_param_defined.
  - rewrite (issued_after_call _ _ _ (sendMessage_run _ _)). simpl.
    by rewrite describe_params_post, literal_4 by distinct_keys.
Qed.

Lemma sendMessage_request_witness :
  describe <$> issued (sendMessage (api := failing_client)
                         [VStr "s1"; VStr "hello"; VStr "math"; VStr "fast"]) store0
  = [Some (Request POST "/services/chat"
             (mapping [("session_id", VStr "s1"); ("user_query", VStr "hello");
                       ("subject", VStr "math"); ("learner_type", VStr "fast")])
             NoBody None)].
Proof.
  apply (sendMessage_request (H := failing_client)
           (VStr "s1") (VStr "hello") (VStr "math") (VStr "fast") store0).
  discriminate.
Defined.

(** C2: with the learner type left out, sendMessage(s, q, subj) and
    getRecommendations(subj) send learner_type = "medium". *)
Theorem learnerType_defaults_to_medium `{HttpClient} s q subj σ :
  describe <$> issued (sendMessage [s; q; subj]) σ
  = [Some (Request POST "/services/chat"
             (mapping [("session_id", s); ("user_query", q);
                       ("subject", subj); ("learner_type", VStr "medium")])
             NoBody None)]
  ∧ describe <$> issued (getRecommendations [subj]) σ
  = [Some (Request POST "/services/recommendations"
             (mapping [("subject", subj); ("learner_type", VStr "medium")])
             NoBody None)].
Proof.
  split.
  - rewrite (issued_after_call _ _ _ (sendMessage_run _ _)). simpl.
    by rewrite describe_params_post, literal_4 by distinct_keys.
  - rewrite (issued_after_call _ _ _ (getRecommendations_run _ _)). simpl.
    by rewrite describe_params_post, literal_2.
Qed.

(** C3: getSessions() makes one GET to /services/sessions with no parameters;
    createSession(userId) one POST to /services/session/create with exactly
    user_id = userId; getAutocompleteSuggestions(p, s) one POST to
    /services/autocomplete with exactly user_query_partial = p, subject = s. *)
Theorem sessions_create_autocomplete_requests `{HttpClient} args userId p s σ :
  describe <$> issued (getSessions args) σ
  = [Some (Request GET "/services/sessions" ∅ NoBody None)]
  ∧ describe <$> issued (createSession [userId]) σ
  = [Some (Request POST "/services/session/create"
             (mapping [("user_id", userId)]) NoBody None)]
  ∧ describe <$> issued (getAutocompleteSuggestions [p; s]) σ
  = [Some (Request POST "/services/autocomplete"
             (mapping [("user_query_partial", p); ("subject", s)])
             NoBody None)].
Proof.
  split; [| split].
  - rewrite (issued_after_call _ _ _ (getSessions_run _ _)). simpl.
    by rewrite describe_bare.
  - rewrite (issued_after_call _ _ _ (createSession_run _ _)). simpl.
    by rewrite describe_params_post, literal_1.
  - rewrite (issued_after_call _ _ _ (getAutocompleteSuggestions_run _ _)). simpl.
    by rewrite describe_params_post, literal_2.
Qed.

Example createSession_u1 :
  describe <$> issued (createSession (api := failing_client) [VStr "u1"]) store0
  = [Some (Request POST "/services/session/create"
             (mapping [("user_id", VStr "u1")]) NoBody None)].
Proof. by vm_compute. Qed.

(** C4: deleteSession(userId, sessionId) makes exactly one call, a DELETE to
    /services/session/delete whose query parameters are exactly
    user_id = userId and session_id = sessionId. *)
Theorem deleteSession_request `{HttpClient} userId sessionId σ :
  describe <$> issued (deleteSession [userId; sessionId]) σ
  = [Some (Request DELETE "/services/session/delete"
             (mapping [("user_id", userId); ("session_id", sessionId)])
             NoBody None)].
Proof.
  rewrite (issued_after_call _ _ _ (deleteSession_run _ _)). simpl.
  by rewrite describe_params_call, literal_2.
Qed.

Lemma form_entry_file (h fresh : heap) f :
  is_file h f = true → form_entry (h ++ fresh) f = f.
Proof.
  destruct f as [| | | | |l]; simpl; try done.
  destruct (h !! l) as [o|] eqn:E; [|done].
  rewrite (lookup_old _ _ _ _ E). by destruct o.
Qed.

(** C5: for every file f, uploadTextbook(f) makes one POST to
    /services/upload whose body is a multipart form with exactly one field,
    "file", holding f itself, and whose headers set Content-Type to
    multipart/form-data. *)
Theorem uploadTextbook_request `{HttpClient} f σ :
  is_file (st_heap σ) f = true →
  describe <$> issued (uploadTextbook [f]) σ
  = [Some (Request POST "/services/upload" ∅
             (Multipart [("file", f)])
             (Some (mapping [("Content-Type", VStr "multipart/form-data")])))].
Proof.
  intros Hf.
  rewrite (issued_after_call _ _ _ (uploadTextbook_run _ _)). simpl.
  rewrite describe_upload, literal_1.
  unfold arg. simpl. by rewrite form_entry_file.
Qed.

Lemma uploadTextbook_request_witness :
  describe <$> issued (uploadTextbook (api := failing_client) [VRef 0]) store0
  = [Some (Request POST "/services/upload" ∅
             (Multipart [("file", VRef 0)])
             (Some (mapping [("Content-Type", VStr "multipart/form-data")])))].
Proof.
  apply (uploadTextbook_request (H := failing_client) (VRef 0) store0).
  reflexivity.
Defined.

(** ** Properties shared by all operations *)

(** Every operation allocates at the end of the store and then makes one
    call, whose outcome is the outcome of the operation. *)
Lemma aiAssistantApi_run `{HttpClient} op args σ :
  ∃ d fresh,
    aiAssistantApi op args σ = after_call d σ
    ∧ d_heap d = st_heap σ ++ fresh.
Proof.
  destruct op; simpl.
  - eexists _, _. split; [apply sendMessage_run | reflexivity].
  - eexists _, []. split; [apply getSessions_run | by rewrite app_nil_r].
  - eexists _, _. split; [apply createSession_run | reflexivity].
  - eexists _, _. split; [apply deleteSession_run | reflexivity].
  - eexists _, _. split; [apply getRecommendations_run | reflexivity].
  - eexists _, _. split; [apply getAutocompleteSuggestions_run | reflexivity].
  - eexists _, _. split; [apply uploadTextbook_run | reflexivity].
Qed.

(** C6: the value an operation returns is the very value the client's method
    returned (no promise of its own is allocated after the call, the store is
    left as the client left it); so whenever the client's pending result
    rejects with an error e, so does the operation's, with the same e. *)
Theorem transport_failure_propagates `{HttpClient} op args σ :
  ∃ d,
    issued (aiAssistantApi op args) σ = [d]
    ∧ (aiAssistantApi op args σ).1 = (perform d).1
    ∧ st_heap (aiAssistantApi op args σ).2 = (perform d).2
    ∧ ∀ hf e, rejects hf (perform d).1 e →
              rejects hf (aiAssistantApi op args σ).1 e.
Proof.
  destruct (aiAssistantApi_run op args σ) as (d & fresh & Hrun & _).
  exists d. rewrite (issued_after_call _ _ _ Hrun), Hrun. by simpl.
Qed.

Lemma transport_failure_propagates_witness :
  rejects (st_heap (aiAssistantApi (api := failing_client)
                      CreateSession [VStr "u1"] store0).2)
          (aiAssistantApi (api := failing_client) CreateSession [VStr "u1"] store0).1
          (VRef 3).
Proof.
  destruct (transport_failure_propagates (H := failing_client)
              CreateSession [VStr "u1"] store0) as (d & Hd & _ & _ & Hrej).
  apply Hrej.
  vm_compute in Hd. injection Hd as <-.
  exists 4. split; reflexivity.
Defined.

(** C7: an invocation appends exactly one call to the calls made on the
    client; up to that call the store is the initial one followed by freshly
    allocated objects (so no object that existed, be it an argument or the
    client's configuration, is changed); and the outcome, returned value and
    final store, is exactly the outcome of that call. *)
Theorem one_call_and_no_other_effect `{HttpClient} op args σ :
  ∃ d fresh,
    st_trace (aiAssistantApi op args σ).2 = st_trace σ ++ [d]
    ∧ d_heap d = st_heap σ ++ fresh
    ∧ (∀ l o, st_heap σ !! l = Some o → d_heap d !! l = Some o)
    ∧ (aiAssistantApi op args σ).1 = (perform d).1
    ∧ st_heap (aiAssistantApi op args σ).2 = (perform d).2.
Proof.
  destruct (aiAssistantApi_run op args σ) as (d & fresh & Hrun & Hheap).
  exists d, fresh. rewrite Hrun, Hheap. simpl.
  repeat split; try done. intros l o. apply lookup_old.
Qed.

Lemma one_call_and_no_other_effect_witness :
  ∃ d, st_trace (aiAssistantApi (api := failing_client)
                   UploadTextbook [VRef 0] store0).2 = [d]
       ∧ d_heap d !! 0 = Some (OFile "book.pdf" "%PDF-1.7").
Proof.
  destruct (one_call_and_no_other_effect (H := failing_client)
              UploadTextbook [VRef 0] store0) as (d & fresh & Ht & _ & Hold & _).
  exists d. split; [exact Ht | apply Hold; reflexivity].
Defined.

(** ** Statelessness *)

Lemma form_entry_agree (h1 h2 fresh1 fresh2 : heap) v :
  (∀ l, v = VRef l → is_Some (h1 !! l) ∧ h1 !! l = h2 !! l) →
  form_entry (h1 ++ fresh1) v = form_entry (h2 ++ fresh2) v.
Proof.
  intros Hv. destruct v as [| | | | |l]; try done.
  destruct (Hv l eq_refl) as [[o Ho] E].
  unfold form_entry, to_string.
  rewrite (lookup_old h1 fresh1 l o Ho).
  rewrite E in Ho. by rewrite (lookup_old h2 fresh2 l o Ho).
Qed.

(** C8: the request an operation builds is a function of its arguments (and,
    for the upload, of the object its argument refers to) alone.  Run from
    any two states whose stores agree on that object (two invocations at
    different moments, whatever was invoked in between), the operation makes
    one call each time, the two calls read as the same, well-formed
    descriptor, and each invocation returns what the client returned for its
    own call. *)
Theorem calls_do_not_interfere `{HttpClient} op args σ1 σ2 :
  agree_on (st_heap σ1) (st_heap σ2) (dereferenced op args) →
  ∃ d1 d2 rd,
    issued (aiAssistantApi op args) σ1 = [d1]
    ∧ issued (aiAssistantApi op args) σ2 = [d2]
    ∧ describe d1 = Some rd
    ∧ describe d2 = Some rd
    ∧ (aiAssistantApi op args σ1).1 = (perform d1).1
    ∧ (aiAssistantApi op args σ2).1 = (perform d2).1.
Proof.
  intros Hagree.
  destruct op; simpl.
  - eexists _, _, _.
    rewrite !(issued_after_call _ _ _ (sendMessage_run _ _)), !sendMessage_run.
    simpl. by rewrite !describe_params_post.
  - eexists _, _, _.
    rewrite !(issued_after_call _ _ _ (getSessions_run _ _)), !getSessions_run.
    simpl. by rewrite !describe_bare.
  - eexists _, _, _.
    rewrite !(issued_after_call _ _ _ (createSession_run _ _)), !createSession_run.
    simpl. by rewrite !describe_params_post.
  - eexists _, _, _.
    rewrite !(issued_after_call _ _ _ (deleteSession_run _ _)), !deleteSession_run.
    simpl. by rewrite !describe_params_call.
  - eexists _, _, _.
    rewrite !(issued_after_call _ _ _ (getRecommendations_run _ _)),
      !getRecommendations_run.
    simpl. by rewrite !describe_params_post.
  - eexists _, _, _.
    rewrite !(issued_after_call _ _ _ (getAutocompleteSuggestions_run _ _)),
      !getAutocompleteSuggestions_run.
    simpl. by rewrite !describe_params_post.
  - eexists _, _, _.
    rewrite !(issued_after_call _ _ _ (uploadTextbook_run _ _)), !uploadTextbook_run.
    simpl. rewrite !describe_upload.
    rewrite (form_entry_agree (st_heap σ1) (st_heap σ2) _ [OFormData []]); [done|].
    intros l El. apply Hagree. simpl. rewrite El. set_solver.
Qed.

Lemma calls_do_not_interfere_witness :
  ∃ rd,
    describe <$> issued (aiAssistantApi (api := failing_client)
                           UploadTextbook [VRef 0]) store0 = [Some rd]
    ∧ describe <$> issued (aiAssistantApi (api := failing_client)
                             UploadTextbook [VRef 0])
                     (aiAssistantApi (api := failing_client)
                        CreateSession [VStr "u1"] store0).2 = [Some rd].
Proof.
  destruct (calls_do_not_interfere (H := failing_client)
              UploadTextbook [VRef 0] store0
              (aiAssistantApi (api := failing_client)
                 CreateSession [VStr "u1"] store0).2)
    as (d1 & d2 & rd & E1 & E2 & R1 & R2 & _).
  - intros l Hl. apply list_elem_of_singleton in Hl. injection Hl as ->.
    split; [by eexists | reflexivity].
  - exists rd. rewrite E1, E2. simpl. by rewrite R1, R2.
Defined.

(** ** Presence of the parameters of the table *)

(** C9, as stated, at createSession() called without its argument: the call
    is made all the same, and user_id is bound to undefined. *)
Lemma createSession_user_id_undefined :
  (∃ rd, describe <$> issued (aiAssistantApi (api := failing_client)
                                CreateSession []) store0 = [Some rd]
         ∧ rd_parameters rd !! "user_id" = Some VUndef)
  ∧ ¬ (∃ rd v, describe <$> issued (aiAssistantApi (api := failing_client)
                                      CreateSession []) store0 = [Some rd]
               ∧ rd_parameters rd !! "user_id" = Some v
               ∧ v ≠ VUndef).
Proof.
  split.
  - eexists. split; by vm_compute.
  - intros (rd & v & Hrd & Hv & Hdef).
    vm_compute in Hrd. injection Hrd as <-.
    vm_compute in Hv. by injection Hv as <-.
Qed.

Lemma default_param_medium v : default_param v (VStr "medium") ≠ VUndef.
Proof. by destruct v. Qed.

Ltac lookup_literal :=
  unfold literal; simpl;
  repeat first [ rewrite lookup_insert_eq | rewrite lookup_insert_ne by done ].

(** C9 (amended): for every operation and every choice of arguments, each
    parameter the table lists for the operation is a key of the parameter
    mapping of the request that is made.  Its value is the argument the
    source binds to that key, whenever that argument is defined; for an
    undefined (or missing) argument it is "medium" for learner_type and
    undefined for every other key.  So a parameter is defined whenever its
    own argument is, and learner_type always is; no check is made that an
    argument is defined. *)
Theorem required_parameters_present `{HttpClient} op args σ key :
  key ∈ table_parameters op →
  ∃ rd v i,
    describe <$> issued (aiAssistantApi op args) σ = [Some rd]
    ∧ rd_parameters rd !! key = Some v
    ∧ (key, i) ∈ parameter_arguments op
    ∧ (arg i args ≠ VUndef → v = arg i args)
    ∧ (arg i args = VUndef →
       v = if decide (key = "learner_type") then VStr "medium" else VUndef)
    ∧ (key = "learner_type" ∨ arg i args ≠ VUndef → v ≠ VUndef).
Proof.
  intros Hkey.
  destruct op; simpl in Hkey |- *;
    repeat (apply elem_of_cons in Hkey as [->|Hkey]);
    try (by apply elem_of_nil in Hkey).
  all: try (rewrite (issued_after_call _ _ _ (sendMessage_run _ _))).
  all: try (rewrite (issued_after_call _ _ _ (createSession_run _ _))).
  all: try (rewrite (issued_after_call _ _ _ (deleteSession_run _ _))).
  all: try (rewrite (issued_after_call _ _ _ (getRecommendations_run _ _))).
  all: try (rewrite (issued_after_call _ _ _ (getAutocompleteSuggestions_run _ _))).
  all: simpl; rewrite ?describe_params_post, ?describe_params_call by done.
  all: eexists _, _, _; split; [reflexivity|]; simpl.
  all: split; [by lookup_literal|].
  all: split; [repeat first [apply list_elem_of_here | apply list_elem_of_further]|].
  all: simpl; repeat split.
  all: try (intros Hdef; by rewrite ?default_param_defined).
  all: try (by intros ->).
  all: try (intros [Hk|Hdef]; [done|]; by rewrite ?default_param_defined).
  all: intros _; apply default_param_medium.
Qed.

Lemma required_parameters_present_witness :
  ∃ rd,
    describe <$> issued (aiAssistantApi (api := failing_client)
                           SendMessage [VStr "s1"; VStr "hello"; VStr "math"])
                   store0 = [Some rd]
    ∧ rd_parameters rd !! "session_id" = Some (VStr "s1").
Proof.
  destruct (required_parameters_present (H := failing_client)
              SendMessage [VStr "s1"; VStr "hello"; VStr "math"] store0
              "session_id")
    as (rd & v & i & Hrd & Hv & Hi & Hdef & _).
  - simpl. apply list_elem_of_here.
  - exists rd. split; [exact Hrd|]. rewrite Hv. f_equal.
    simpl in Hi.
    repeat (apply elem_of_cons in Hi as [Hi|Hi];
            [first [discriminate Hi | injection Hi as ->]|]).
    + apply Hdef. discriminate.
    + by apply elem_of_nil in Hi.
Defined.

(** ** Body and headers *)

Ltac close_shape :=
  simpl; split; [reflexivity|];
  split; [ first [rewrite lookup_fresh_1 | rewrite lookup_fresh_0];
           rewrite ?literal_1; reflexivity
         | split; reflexivity ].

(** C10: only uploadTextbook attaches a body (its FormData) and a headers
    mapping.  sendMessage, createSession, getRecommendations and
    getAutocompleteSuggestions pass the path, an explicit null body and a
    configuration whose only property is params; deleteSession passes the
    path and such a configuration; getSessions passes the path alone. *)
Theorem only_upload_attaches_body_or_headers `{HttpClient} op args σ :
  ∃ d rd,
    issued (aiAssistantApi op args) σ = [d]
    ∧ describe d = Some rd
    ∧ match op with
      | UploadTextbook =>
          ∃ fd cfg es hs,
            d_args d = [VStr "/services/upload"; VRef fd; VRef cfg]
            ∧ d_heap d !! fd = Some (OFormData es)
            ∧ rd_body rd = Multipart es
            ∧ rd_headers rd = Some hs
      | GetSessions =>
          d_args d = [VStr "/services/sessions"]
          ∧ rd_parameters rd = ∅
          ∧ rd_body rd = NoBody
          ∧ rd_headers rd = None
      | DeleteSession =>
          ∃ cfg p,
            d_args d = [VStr "/services/session/delete"; VRef cfg]
            ∧ d_heap d !! cfg = Some (OPlain (mapping [("params", VRef p)]))
            ∧ rd_body rd = NoBody
            ∧ rd_headers rd = None
      | _ => passes_null_body_and_params_only d rd
      end.
Proof.
  destruct op; simpl.
  - eexists _, _.
    rewrite (issued_after_call _ _ _ (sendMessage_run _ _)).
    split; [reflexivity|].
    rewrite describe_params_post.
    split; [reflexivity|].
    eexists _, _, _. close_shape.
  - eexists _, _.
    rewrite (issued_after_call _ _ _ (getSessions_run _ _)).
    split; [reflexivity|].
    rewrite describe_bare.
    split; [reflexivity|]. simpl. by repeat split.
  - eexists _, _.
    rewrite (issued_after_call _ _ _ (createSession_run _ _)).
    split; [reflexivity|].
    rewrite describe_params_post.
    split; [reflexivity|].
    eexists _, _, _. close_shape.
  - eexists _, _.
    rewrite (issued_after_call _ _ _ (deleteSession_run _ _)).
    split; [reflexivity|].
    rewrite describe_params_call by done.
    split; [reflexivity|].
    eexists _, _. close_shape.
  - eexists _, _.
    rewrite (issued_after_call _ _ _ (getRecommendations_run _ _)).
    split; [reflexivity|].
    rewrite describe_params_post.
    split; [reflexivity|].
    eexists _, _, _. close_shape.
  - eexists _, _.
    rewrite (issued_after_call _ _ _ (getAutocompleteSuggestions_run _ _)).
    split; [reflexivity|].
    rewrite describe_params_post.
    split; [reflexivity|].
    eexists _, _, _. close_shape.
  - eexists _, _.
    rewrite (issued_after_call _ _ _ (uploadTextbook_run _ _)).
    split; [reflexivity|].
    rewrite describe_upload.
    split; [reflexivity|].
    eexists _, _, _, _. close_shape.
Qed.

(** ** Further properties of the operations *)

(** The call of an operation, whatever the client: method and path are the
    operation's own, and every reference in the argument list is to an object
    allocated by this invocation. *)
Ltac fresh_refs :=
  do 3 (split; [reflexivity|]);
  intros l Hl; simpl in Hl |- *; rewrite ?length_app; simpl;
  repeat (apply elem_of_cons in Hl as [Hl|Hl];
          [ first [discriminate Hl | injection Hl as ->; lia] |]);
  by apply elem_of_nil in Hl.

Lemma issued_shape `{HttpClient} op args σ :
  ∃ d,
    issued (aiAssistantApi op args) σ = [d]
    ∧ d_method d = http_method op
    ∧ arg 0 (d_args d) = VStr (endpoint op)
    ∧ ∀ l, VRef l ∈ d_args d →
           (length (st_heap σ) ≤ l)%nat ∧ (l < length (d_heap d))%nat.
Proof.
  destruct op; simpl; eexists.
  - rewrite (issued_after_call _ _ _ (sendMessage_run _ _)). fresh_refs.
  - rewrite (issued_after_call _ _ _ (getSessions_run _ _)). fresh_refs.
  - rewrite (issued_after_call _ _ _ (createSession_run _ _)). fresh_refs.
  - rewrite (issued_after_call _ _ _ (deleteSession_run _ _)). fresh_refs.
  - rewrite (issued_after_call _ _ _ (getRecommendations_run _ _)). fresh_refs.
  - rewrite (issued_after_call _ _ _ (getAutocompleteSuggestions_run _ _)).
    fresh_refs.
  - rewrite (issued_after_call _ _ _ (uploadTextbook_run _ _)). fresh_refs.
Qed.

(** X1: getRecommendations(subject, learnerType) with a learner type other
    than undefined (null included) makes one POST to
    /services/recommendations with exactly subject and learner_type, bound
    to the two arguments, no body and no headers. *)
Theorem getRecommendations_request `{HttpClient} subject learnerType σ :
  learnerType ≠ VUndef →
  describe <$> issued (getRecommendations [subject; learnerType]) σ
  = [Some (Request POST "/services/recommendations"
             (mapping [("subject", subject); ("learner_type", learnerType)])
             NoBody None)].
Proof.
  intros Hdef.
  rewrite (issued_after_call _ _ _ (getRecommendations_run _ _)). simpl.
  rewrite describe_params_post, literal_2 by done.
  unfold arg. simpl. by rewrite default_param_defined.
Qed.

Lemma getRecommendations_request_witness :
  describe <$> issued (getRecommendations (api := failing_client)
                         [VStr "math"; VNull]) store0
  = [Some (Request POST "/services/recommendations"
             (mapping [("subject", VStr "math"); ("learner_type", VNull)])
             NoBody None)].
Proof.
  apply (getRecommendations_request (H := failing_client) (VStr "math") VNull store0).
  discriminate.
Defined.

(** X2: an operation reads its declared parameters and nothing else of the
    argument list: two argument lists that agree on them (a missing argument
    counting as undefined) give the same call, result and final state.  So
    surplus arguments are ignored, and leaving an argument out is the same
    as passing undefined. *)
Theorem only_declared_parameters_are_read `{HttpClient} op args args' σ :
  (∀ i, (i < arity op)%nat → arg i args = arg i args') →
  aiAssistantApi op args σ = aiAssistantApi op args' σ.
Proof.
  intros Hargs.
  destruct op; simpl in *.
  - rewrite !sendMessage_run. simpl.
    by rewrite !(Hargs 0), !(Hargs 1), !(Hargs 2), !(Hargs 3) by lia.
  - by rewrite !getSessions_run.
  - rewrite !createSession_run. simpl. by rewrite !(Hargs 0) by lia.
  - rewrite !deleteSession_run. simpl.
    by rewrite !(Hargs 0), !(Hargs 1) by lia.
  - rewrite !getRecommendations_run. simpl.
    by rewrite !(Hargs 0), !(Hargs 1) by lia.
  - rewrite !getAutocompleteSuggestions_run. simpl.
    by rewrite !(Hargs 0), !(Hargs 1) by lia.
  - rewrite !uploadTextbook_run. simpl. by rewrite !(Hargs 0) by lia.
Qed.

Lemma only_declared_parameters_are_read_witness :
  aiAssistantApi (api := failing_client) SendMessage
    [VStr "s1"; VStr "hello"; VStr "math"] store0
  = aiAssistantApi (api := failing_client) SendMessage
      [VStr "s1"; VStr "hello"; VStr "math"; VUndef; VStr "surplus"] store0.
Proof.
  apply (only_declared_parameters_are_read (H := failing_client)).
  intros [|[|[|[|i]]]] Hi; simpl in Hi; try reflexivity; lia.
Defined.

(** X3: the client method and the path of the call are fixed by the
    operation: whatever the arguments (of any type, missing or surplus),
    none of them reaches the method or the path. *)
Theorem method_and_path_are_fixed `{HttpClient} op args σ :
  ∃ d,
    issued (aiAssistantApi op args) σ = [d]
    ∧ d_method d = http_method op
    ∧ arg 0 (d_args d) = VStr (endpoint op).
Proof.
  destruct (issued_shape op args σ) as (d & Hd & Hm & Hp & _).
  by exists d.
Qed.

(** X4: the path alone tells the operations apart: two invocations whose
    calls carry the same path are invocations of the same operation. *)
Theorem path_identifies_operation `{HttpClient}
  op1 args1 σ1 op2 args2 σ2 d1 d2 :
  issued (aiAssistantApi op1 args1) σ1 = [d1] →
  issued (aiAssistantApi op2 args2) σ2 = [d2] →
  arg 0 (d_args d1) = arg 0 (d_args d2) →
  op1 = op2.
Proof.
  intros H1 H2 Hpath.
  destruct (issued_shape op1 args1 σ1) as (e1 & E1 & _ & P1 & _).
  destruct (issued_shape op2 args2 σ2) as (e2 & E2 & _ & P2 & _).
  rewrite H1 in E1. rewrite H2 in E2.
  injection E1 as <-. injection E2 as <-.
  rewrite P1, P2 in Hpath.
  by destruct op1, op2.
Qed.

Lemma path_identifies_operation_witness :
  CreateSession = CreateSession.
Proof.
  apply (path_identifies_operation (H := failing_client)
           CreateSession [VStr "u1"] store0
           CreateSession [VStr "u2"; VNum 7]
           (aiAssistantApi (api := failing_client) GetSessions [] store0).2
           (Dispatch POST [VStr "/services/session/create"; VNull; VRef 2]
              [OFile "book.pdf" "%PDF-1.7";
               OPlain (mapping [("user_id", VStr "u1")]);
               OPlain (mapping [("params", VRef 1)])])
           (Dispatch POST [VStr "/services/session/create"; VNull; VRef 4]
              [OFile "book.pdf" "%PDF-1.7";
               OError "Network Error"; OPromise (Rejected (VRef 1));
               OPlain (mapping [("user_id", VStr "u2")]);
               OPlain (mapping [("params", VRef 3)])]));
    by vm_compute.
Defined.

Ltac literal_dom :=
  unfold literal; simpl;
  rewrite ?dom_insert_L, ?dom_empty_L; set_solver.

(** X5: whatever the arguments, the keys of the parameter mapping of the
    request are exactly the parameters the operation names: no argument adds
    a key or removes one (getSessions and uploadTextbook send none). *)
Theorem parameter_keys_are_fixed `{HttpClient} op args σ :
  ∃ rd,
    describe <$> issued (aiAssistantApi op args) σ = [Some rd]
    ∧ dom (rd_parameters rd) = (list_to_set (table_parameters op) : gset string).
Proof.
  destruct op; simpl; eexists.
  - rewrite (issued_after_call _ _ _ (sendMessage_run _ _)). simpl.
    rewrite describe_params_post. split; [reflexivity | simpl; literal_dom].
  - rewrite (issued_after_call _ _ _ (getSessions_run _ _)). simpl.
    rewrite describe_bare. split; [reflexivity | simpl; literal_dom].
  - rewrite (issued_after_call _ _ _ (createSession_run _ _)). simpl.
    rewrite describe_params_post. split; [reflexivity | simpl; literal_dom].
  - rewrite (issued_after_call _ _ _ (deleteSession_run _ _)). simpl.
    rewrite describe_params_call by done.
    split; [reflexivity | simpl; literal_dom].
  - rewrite (issued_after_call _ _ _ (getRecommendations_run _ _)). simpl.
    rewrite describe_params_post. split; [reflexivity | simpl; literal_dom].
  - rewrite (issued_after_call _ _ _ (getAutocompleteSuggestions_run _ _)). simpl.
    rewrite describe_params_post. split; [reflexivity | simpl; literal_dom].
  - rewrite (issued_after_call _ _ _ (uploadTextbook_run _ _)). simpl.
    rewrite describe_upload. split; [reflexivity | simpl; literal_dom].
Qed.

(** X6: the learner_type sent by sendMessage and by getRecommendations is
    never undefined, whatever argument list they are called with. *)
Theorem learner_type_is_never_undefined `{HttpClient} args σ :
  (∃ rd v,
     describe <$> issued (sendMessage args) σ = [Some rd]
     ∧ rd_parameters rd !! "learner_type" = Some v
     ∧ v ≠ VUndef)
  ∧ (∃ rd v,
       describe <$> issued (getRecommendations args) σ = [Some rd]
       ∧ rd_parameters rd !! "learner_type" = Some v
       ∧ v ≠ VUndef).
Proof.
  split; eexists _, _.
  - rewrite (issued_after_call _ _ _ (sendMessage_run _ _)). simpl.
    rewrite describe_params_post. split; [reflexivity|]. simpl.
    split; [by lookup_literal | apply default_param_medium].
  - rewrite (issued_after_call _ _ _ (getRecommendations_run _ _)). simpl.
    rewrite describe_params_post. split; [reflexivity|]. simpl.
    split; [by lookup_literal | apply default_param_medium].
Qed.



(** X8: every object handed to the client in the argument list of the call
    (the configuration, and the FormData of the upload) is allocated by this
    very invocation: its location was free before and holds an object at the
    call.  No object of the caller and no object of an earlier invocation is
    passed as configuration or body. *)
Theorem call_objects_are_fresh `{HttpClient} op args σ :
  ∃ d,
    issued (aiAssistantApi op args) σ = [d]
    ∧ ∀ l, VRef l ∈ d_args d →
           st_heap σ !! l = None ∧ is_Some (d_heap d !! l).
Proof.
  destruct (issued_shape op args σ) as (d & Hd & _ & _ & Hfresh).
  exists d. split; [done|]. intros l Hl.
  destruct (Hfresh l Hl) as [Hge Hlt]. split.
  - by apply lookup_ge_None.
  - by apply lookup_lt_is_Some.
Qed.

Lemma call_objects_are_fresh_witness :
  ∃ d,
    issued (aiAssistantApi (api := failing_client)
              UploadTextbook [VRef 0]) store0 = [d]
    ∧ st_heap store0 !! 1 = None
    ∧ is_Some (d_heap d !! 1).
Proof.
  destruct (call_objects_are_fresh (H := failing_client)
              UploadTextbook [VRef 0] store0) as (d & Hd & Hfresh).
  exists d. split; [exact Hd|].
  apply Hfresh.
  vm_compute in Hd. injection Hd as <-. simpl.
  apply elem_of_cons. right. apply elem_of_cons. by left.
Defined.

(** X9: the call is built before the client is entered and does not depend
    on it: with any two clients the same invocation from the same state makes
    the same call (method, arguments and store at the call). *)
Theorem request_does_not_depend_on_client (A B : HttpClient) op args σ :
  issued (aiAssistantApi (api := A) op args) σ
  = issued (aiAssistantApi (api := B) op args) σ.
Proof.
  destruct op; simpl.
  - by rewrite !(issued_after_call _ _ _ (sendMessage_run _ _)).
  - by rewrite !(issued_after_call _ _ _ (getSessions_run _ _)).
  - by rewrite !(issued_after_call _ _ _ (createSession_run _ _)).
  - by rewrite !(issued_after_call _ _ _ (deleteSession_run _ _)).
  - by rewrite !(issued_after_call _ _ _ (getRecommendations_run _ _)).
  - by rewrite !(issued_after_call _ _ _ (getAutocompleteSuggestions_run _ _)).
  - by rewrite !(issued_after_call _ _ _ (uploadTextbook_run _ _)).
Qed.

(** X10: two invocations one after the other make exactly two calls, in the
    order of the invocations; the second call is the one the second operation
    makes from the state the first left, and the value of the sequence is the
    value of the second invocation. *)
Theorem two_invocations_in_sequence `{HttpClient} op1 args1 op2 args2 σ :
  issued (aiAssistantApi op1 args1 ;;; aiAssistantApi op2 args2) σ
  = issued (aiAssistantApi op1 args1) σ
    ++ issued (aiAssistantApi op2 args2) (aiAssistantApi op1 args1 σ).2
  ∧ length (issued (aiAssistantApi op1 args1 ;;; aiAssistantApi op2 args2) σ) = 2
  ∧ ((aiAssistantApi op1 args1 ;;; aiAssistantApi op2 args2) σ).1
    = (aiAssistantApi op2 args2 (aiAssistantApi op1 args1 σ).2).1.
Proof.
  destruct (aiAssistantApi_run op1 args1 σ) as (d1 & f1 & R1 & _).
  destruct (aiAssistantApi_run op2 args2 (aiAssistantApi op1 args1 σ).2)
    as (d2 & f2 & R2 & _).
  rewrite (issued_after_call _ _ _ R1), (issued_after_call _ _ _ R2).
  assert (E : issued (aiAssistantApi op1 args1 ;;; aiAssistantApi op2 args2) σ
              = [d1; d2]).
  { unfold issued, bind.
    destruct (aiAssistantApi op1 args1 σ) as [r1 σ1] eqn:E1.
    simpl in R2. rewrite R2. injection R1 as -> ->. simpl.
    rewrite <- app_assoc. by rewrite drop_app_length. }
  rewrite E. repeat split.
  unfold bind. by destruct (aiAssistantApi op1 args1 σ).
Qed.
